(** * Verification of [tools/update_init_file.py]

    A shallow embedding of the script that regenerates the [__all__] list of
    [altair/__init__.py], and the properties of its relevance filter and of
    its splice of the entry-point file. *)

From Stdlib Require Import List ZArith Bool Ascii String Lia Permutation Sorted.
From Stdlib Require Import OrderedTypeEx.
Import ListNotations.
Local Open Scope string_scope.
Local Open Scope list_scope.

(** ** Exceptions and fallible computations *)

(** The two exceptions the script can raise by itself: the [assert]s of
    [update__all__variable], and the attribute lookup [.startswith] on a value
    that is not a [str]. *)
Inductive exn : Type :=
| AssertionError
| AttributeError.

Inductive result (A : Type) : Type :=
| Ok (a : A)
| Raise (e : exn).
Arguments Ok {A} a.
Arguments Raise {A} e.

Definition bind {A B : Type} (m : result A) (k : A -> result B) : result B :=
  match m with
  | Ok a => k a
  | Raise e => Raise e
  end.

Notation "x <- m ;; k" := (bind m (fun x => k))
  (at level 61, m at next level, right associativity).

(** ** Python values *)

Set Warnings "-register-all".

(** The runtime objects a module namespace binds, as far as the script observes
    them.  [VObject] stands for classes, functions and instances with the
    default identity-based equality and hash; [VModule] for instances of
    [types.ModuleType].  Both carry the attributes that [getattr_static]
    resolves on them (instance dictionary and type, flattened); [oid] is the
    identity of the object. *)
Inductive value : Type :=
| VNone
| VBool (b : bool)
| VInt (z : Z)
| VStr (s : string)
| VList (items : list value)
| VObject (oid : positive) (attrs : list (string * value))
| VModule (oid : positive) (attrs : list (string * value)).

(** A module [__dict__], in iteration (insertion) order.  A [str] is the
    sequence of its code points, taken below 256. *)
Definition namespace : Type := list (string * value).

(** [s.startswith(p)] *)
Definition startswith (s p : string) : bool := String.prefix p s.

(** Truth value of an object, as the operands of [or] are tested. *)
Definition truthy (v : value) : bool :=
  match v with
  | VNone => false
  | VBool b => b
  | VInt z => negb (z =? 0)%Z
  | VStr s => negb (s =? EmptyString)
  | VList items => match items with [] => false | _ :: _ => true end
  | VObject _ _ => true
  | VModule _ _ => true
  end.

Fixpoint lookup (name : string) (attrs : list (string * value)) : option value :=
  match attrs with
  | [] => None
  | (k, v) :: rest => if k =? name then Some v else lookup name rest
  end.

(** [inspect.getattr_static(obj, name, default)].  The built-in scalar and
    list types define none of the names the script asks for ([_deprecated],
    [__deprecated__], [__file__]), so the default is returned for them. *)
Definition static_attr (obj : value) (name : string) : option value :=
  match obj with
  | VObject _ attrs => lookup name attrs
  | VModule _ attrs => lookup name attrs
  | _ => None
  end.

Definition getattr_static (obj : value) (name : string) (default : value) : value :=
  match static_attr obj name with
  | Some v => v
  | None => default
  end.

(** [inspect.ismodule] *)
Definition ismodule (obj : value) : bool :=
  match obj with
  | VModule _ _ => true
  | _ => false
  end.

(** [typing.TYPE_CHECKING] is the constant [False] at runtime. *)
Definition TYPE_CHECKING : value := VBool false.

(** [a is b].  [None], [True] and [False] are singletons and objects are
    identified by [oid]; the identity of numbers and strings is left to the
    interpreter and is never the identity of one of those. *)
Definition py_is (a b : value) : bool :=
  match a, b with
  | VNone, VNone => true
  | VBool x, VBool y => Bool.eqb x y
  | VObject i _, VObject j _ => Pos.eqb i j
  | VModule i _, VModule j _ => Pos.eqb i j
  | _, _ => false
  end.

(** [a == b] *)
Fixpoint py_eq (a b : value) {struct a} : bool :=
  match a, b with
  | VNone, VNone => true
  | VBool x, VBool y => Bool.eqb x y
  | VBool x, VInt z => (z =? (if x then 1 else 0))%Z
  | VInt z, VBool y => (z =? (if y then 1 else 0))%Z
  | VInt x, VInt y => (x =? y)%Z
  | VStr s, VStr t => (s =? t)
  | VList xs, VList ys =>
      (fix items_eq (xs ys : list value) {struct xs} : bool :=
         match xs, ys with
         | [], [] => true
         | x :: xs', y :: ys' => py_eq x y && items_eq xs' ys'
         | _, _ => false
         end) xs ys
  | VObject i _, VObject j _ => Pos.eqb i j
  | VModule i _, VModule j _ => Pos.eqb i j
  | _, _ => false
  end.

(** ** Hashing *)

Inductive hash_outcome : Type :=
| HashOk (h : Z)
| HashTypeError.

(** CPython's hash of an [int]: reduction modulo the Mersenne prime
    [2^61 - 1], keeping the sign, with [-1] reserved for errors. *)
Definition int_hash (z : Z) : Z :=
  let h := (Z.sgn z * (Z.abs z mod (2 ^ 61 - 1)))%Z in
  if (h =? -1)%Z then (-2)%Z else h.

(** ** Strings: ordering, [repr], [strip] *)

(** [sorted] on a sequence of [str]: ascending for the lexicographic order on
    code points.  That order is total and antisymmetric, so the result does
    not depend on the sorting algorithm; insertion is used here. *)
Fixpoint insert (x : string) (l : list string) : list string :=
  match l with
  | [] => [x]
  | y :: l' => if String.leb x y then x :: l else y :: insert x l'
  end.

Fixpoint sorted (l : list string) : list string :=
  match l with
  | [] => []
  | x :: l' => insert x (sorted l')
  end.

Definition newline : ascii := "010"%char.
Definition squote : ascii := "'"%char.
Definition dquote : ascii := "034"%char.
Definition backslash : ascii := "\"%char.

Definition has_char (c : ascii) (s : string) : bool :=
  existsb (Ascii.eqb c) (list_ascii_of_string s).

Definition hex_digit (n : N) : ascii :=
  nth (N.to_nat n) (list_ascii_of_string "0123456789abcdef") "0"%char.

(** One character of [repr(s)], code points below 256. *)
Definition escape_char (quote c : ascii) : string :=
  let n := N_of_ascii c in
  if (c =? quote)%char || (c =? backslash)%char then String backslash (String c EmptyString)
  else if (c =? "009")%char then "\t"
  else if (c =? newline)%char then "\n"
  else if (c =? "013")%char then "\r"
  else if (n <? 32)%N || (n =? 127)%N || ((128 <=? n)%N && (n <=? 160)%N) || (n =? 173)%N
       then String backslash (String "x" (String (hex_digit (n / 16)) (String (hex_digit (n mod 16)) EmptyString)))
  else String c EmptyString.

(** [repr(s)] for a [str]: single quotes, unless the string has a single quote
    and no double quote. *)
Definition py_repr_str (s : string) : string :=
  let quote := if has_char squote s && negb (has_char dquote s) then dquote else squote in
  String quote
    (String.concat EmptyString (map (escape_char quote) (list_ascii_of_string s)) ++ String quote EmptyString).

(** [str(l)] for a list of [str], as an f-string renders it. *)
Definition py_str_list (l : list string) : string :=
  "[" ++ String.concat ", " (map py_repr_str l) ++ "]".

Fixpoint lstrip_nl (s : string) : string :=
  match s with
  | EmptyString => EmptyString
  | String c s' => if (c =? newline)%char then lstrip_nl s' else s
  end.

Fixpoint rstrip_nl (s : string) : string :=
  match s with
  | EmptyString => EmptyString
  | String c s' =>
      let r := rstrip_nl s' in
      if (c =? newline)%char && (r =? EmptyString) then EmptyString else String c r
  end.

(** [line.strip("\n")] *)
Definition strip_nl (line : string) : string := rstrip_nl (lstrip_nl line).

(** ** The exclusion set

    [_TYPING_CONSTRUCTS] is a Python [set]: membership is decided by [==], an
    element equal to one already present is not added again. *)
Definition pyset : Type := list value.

(** [v in s] *)
Definition set_contains (s : pyset) (v : value) : bool := existsb (py_eq v) s.

(** [s.add(v)] *)
Definition set_add (s : pyset) (v : value) : pyset :=
  if set_contains s v then s else s ++ [v].

(** [s.update(vs)] *)
Definition set_update (s : pyset) (vs : list value) : pyset := fold_left set_add vs s.

Section Script.

(** The hash of a non-empty [str] is keyed by a per-process seed. *)
Variable str_hash : string -> Z.

(** [altair.vegalite.v5.schema._typing.__dict__], the namespace of the
    typing-support module imported by [relevant_attributes]. *)
Variable typing_dict : namespace.

(** [str(Path.cwd())] *)
Variable cwd : string.

(** [altair.__dict__], and the lines [ruff.write_lint_format] leaves in the
    file when handed a line sequence. *)
Variable alt_dict : namespace.
Variable write_lint_format : list string -> list string.

(** [hash(obj)]: lists are unhashable, [None] hashes to a fixed constant, the
    empty string to [0], an object without [__hash__] of its own by identity
    (a rotation of its address, never [0]). *)
Definition py_hash (obj : value) : hash_outcome :=
  match obj with
  | VNone => HashOk 4238894112
  | VBool b => HashOk (if b then 1 else 0)
  | VInt z => HashOk (int_hash z)
  | VStr s => HashOk (if s =? EmptyString then 0 else str_hash s)
  | VList _ => HashTypeError
  | VObject i _ => HashOk (Zpos i)
  | VModule i _ => HashOk (Zpos i)
  end.

(** [_is_hashable] (lines 110-115):
    [try: return bool(hash(obj))] / [except TypeError: return False]. *)
Definition _is_hashable (obj : value) : bool :=
  match py_hash obj with
  | HashOk h => negb (h =? 0)%Z
  | HashTypeError => false
  end.

(** The condition of the [if] of [_is_relevant] (lines 120-126). *)
Definition excluded (constructs : pyset) (attr : value) (name : string) : bool :=
  truthy (getattr_static attr "_deprecated" (VBool false))
  || py_is attr TYPE_CHECKING
  || (_is_hashable attr && set_contains constructs attr)
  || ((name =? "pd") || (name =? "jsonschema"))
  || truthy (getattr_static attr "__deprecated__" (VBool false)).

(** [_is_relevant] (lines 118-134), reading the module-global
    [_TYPING_CONSTRUCTS]. *)
Definition _is_relevant (constructs : pyset) (attr : value) (name : string) : result bool :=
  if excluded constructs attr name then Ok false
  else if ismodule attr then
    match getattr_static attr "__file__" (VStr EmptyString) with
    | VStr path => Ok (startswith path cwd)
    | _ => Raise AttributeError
    end
  else Ok true.

(** An entry the generator of [relevant_attributes] raises on, and an entry
    whose name it yields. *)
Definition raises (constructs : pyset) (kv : string * value) : bool :=
  negb (startswith (fst kv) "_")
  && match _is_relevant constructs (snd kv) (fst kv) with Raise _ => true | Ok _ => false end.

Definition keeps (constructs : pyset) (kv : string * value) : bool :=
  negb (startswith (fst kv) "_")
  && match _is_relevant constructs (snd kv) (fst kv) with Ok true => true | _ => false end.

(** The generator of lines 102-106, consumed in iteration order. *)
Fixpoint select_names (constructs : pyset) (ns : namespace) : result (list string) :=
  match ns with
  | [] => Ok []
  | (name, attr) :: rest =>
      if negb (startswith name "_") then
        keep <- _is_relevant constructs attr name ;;
        names <- select_names constructs rest ;;
        Ok (if keep then name :: names else names)
      else select_names constructs rest
  end.

(** The values handed to [_TYPING_CONSTRUCTS.update] (lines 95-101). *)
Definition typing_values : list value :=
  map snd (filter (fun kv => negb (startswith (fst kv) "__") && _is_hashable (snd kv))
                  typing_dict).

(** [relevant_attributes] (lines 80-107): the outcome of the call and the
    module-global exclusion set it leaves. *)
Definition relevant_attributes (ns : namespace) (constructs : pyset)
  : result (list string) * pyset :=
  let constructs' := set_update constructs typing_values in
  (names <- select_names constructs' ns ;; Ok (sorted names), constructs').

(** The exclusion set after a series of calls of [relevant_attributes] in one
    process, one per namespace of [calls]. *)
Fixpoint run_calls (calls : list namespace) (constructs : pyset) : pyset :=
  match calls with
  | [] => constructs
  | ns :: rest => run_calls rest (snd (relevant_attributes ns constructs))
  end.

(** ** The splice of the entry-point file *)

(** The loop of lines 57-64, from index [idx] on: the values of
    [first_definition_line] and [last_definition_line] when it ends. *)
Fixpoint scan (lines : list string) (idx : nat) (first : option nat)
  : option nat * option nat :=
  match lines with
  | [] => (first, None)
  | line :: rest =>
      if startswith line "__all__ =" then scan rest (S idx) (Some idx)
      else if (match first with Some _ => true | None => false end)
              && startswith line "]"
      then (first, Some idx)
      else scan rest (S idx) first
  end.

(** What the script reads and writes: the lines of [altair/__init__.py] as
    [readlines] returns them, the module-global [_TYPING_CONSTRUCTS], and the
    line sequences handed to [ruff.write_lint_format] so far. *)
Record world : Type := World {
  init_file : list string;
  constructs_of : pyset;
  handed : list (list string)
}.

(** [update__all__variable] (lines 40-77). *)
Definition update__all__variable (w : world) : result unit * world :=
  let lines := map strip_nl (init_file w) in
  match scan lines 0 None with
  | (None, _) => (Raise AssertionError, w)
  | (Some _, None) => (Raise AssertionError, w)
  | (Some first_definition_line, Some last_definition_line) =>
      match relevant_attributes alt_dict (constructs_of w) with
      | (Raise e, constructs') =>
          (Raise e, World (init_file w) constructs' (handed w))
      | (Ok names, constructs') =>
          let new_lines :=
            firstn first_definition_line lines
            ++ [("__all__ = " ++ py_str_list names)%string]
            ++ skipn (last_definition_line + 1) lines in
          (Ok tt, World (write_lint_format new_lines) constructs' (handed w ++ [new_lines]))
      end
  end.

End Script.

(** ** Vocabulary of the statements *)

Definition str_le (a b : string) : Prop := String.leb a b = true.

(** The [__file__] of a value, when it has one, is a [str]. *)
Definition file_is_str (attr : value) : Prop :=
  match static_attr attr "__file__" with
  | Some (VStr _) => True
  | Some _ => False
  | None => True
  end.

Definition modules_have_str_file (ns : namespace) : Prop :=
  forall name attr, In (name, attr) ns -> ismodule attr = true -> file_is_str attr.

(** No line starting with a closing bracket comes after a line that opens the
    declaration. *)
Definition no_close_after_decl (lines : list string) : Prop :=
  forall pre decl post, lines = pre ++ decl :: post ->
    startswith decl "__all__ =" = true ->
    forall line, In line post -> startswith line "]" = false.

(** A stand-in for the seeded string hash, and a small project, used to run
    the script on concrete inputs. *)
Definition sample_str_hash (s : string) : Z := Z.of_nat (String.length s) + 7.

Definition sample_typing_dict : namespace :=
  [("__name__", VStr "altair.vegalite.v5.schema._typing");
   ("_T", VObject 5 []);
   ("Map", VObject 6 []);
   ("ZERO", VInt 0);
   ("__all__", VList [VStr "Map"])].

Definition sample_namespace : namespace :=
  [("Chart", VObject 1 []);
   ("_internal", VObject 2 []);
   ("pd", VModule 3 [("__file__", VStr "/site-packages/pandas/__init__.py")]);
   ("TYPE_CHECKING", VBool false);
   ("Map", VObject 6 []);
   ("OldChart", VObject 9 [("_deprecated", VBool true)]);
   ("config_list", VList [VInt 1; VInt 2]);
   ("utils", VModule 7 [("__file__", VStr "/proj/altair/utils/__init__.py")]);
   ("sys", VModule 8 [])].

Definition sample_init_file : list string :=
  [("import sys" ++ String newline EmptyString)%string;
   ("__all__ = [" ++ String newline EmptyString)%string;
   ("    'Chart'," ++ String newline EmptyString)%string;
   ("]" ++ String newline EmptyString)%string;
   ("from .utils import *" ++ String newline EmptyString)%string].

(** * Properties *)

(** ** Equality and hashing of values *)

Lemma py_eq_refl : forall v, py_eq v v = true.
Proof.
  fix IH 1.
  intros [ | b | z | s | items | i a | i a]; simpl.
  - reflexivity.
  - destruct b; reflexivity.
  - apply Z.eqb_refl.
  - apply String.eqb_refl.
  - induction items as [|x xs IHxs]; [reflexivity|].
    rewrite (IH x). simpl. exact IHxs.
  - apply Pos.eqb_refl.
  - apply Pos.eqb_refl.
Qed.

(** Equal values hash alike, whatever the seed of the string hash. *)
Lemma py_eq_hash str_hash a b :
  py_eq a b = true -> py_hash str_hash a = py_hash str_hash b.
Proof.
  destruct a as [ | x | x | x | xs | i ? | i ?], b as [ | y | y | y | ys | j ? | j ?];
    simpl; try discriminate; try reflexivity; intros H.
  - destruct x, y; simpl in H; try discriminate; reflexivity.
  - apply Z.eqb_eq in H; subst y. destruct x; reflexivity.
  - apply Z.eqb_eq in H; subst x. destruct y; reflexivity.
  - apply Z.eqb_eq in H; subst y. reflexivity.
  - apply String.eqb_eq in H; subst y. reflexivity.
  - apply Pos.eqb_eq in H; subst j. reflexivity.
  - apply Pos.eqb_eq in H; subst j. reflexivity.
Qed.

Lemma is_hashable_spec str_hash v :
  _is_hashable str_hash v = true <->
  exists h, py_hash str_hash v = HashOk h /\ h <> 0%Z.
Proof.
  unfold _is_hashable. destruct (py_hash str_hash v) as [h|].
  - rewrite negb_true_iff, Z.eqb_neq. split.
    + intros H. exists h. split; [reflexivity | exact H].
    + intros [h' [E H]]. injection E as ->. exact H.
  - split; [discriminate | intros [h' [E _]]; discriminate].
Qed.

Lemma py_eq_is_hashable str_hash a b :
  py_eq a b = true -> _is_hashable str_hash a = _is_hashable str_hash b.
Proof.
  intros H. unfold _is_hashable. rewrite (py_eq_hash str_hash a b H). reflexivity.
Qed.

(** ** The exclusion set as a Python set *)

Lemma set_contains_In s v : In v s -> set_contains s v = true.
Proof.
  intros H. unfold set_contains. apply existsb_exists.
  exists v. split; [exact H | apply py_eq_refl].
Qed.

Lemma set_contains_app s t v :
  set_contains (s ++ t) v = set_contains s v || set_contains t v.
Proof. unfold set_contains. apply existsb_app. Qed.

Lemma set_add_prefix s v : exists extra, set_add s v = s ++ extra.
Proof.
  unfold set_add. destruct (set_contains s v).
  - exists []. symmetry. apply app_nil_r.
  - exists [v]. reflexivity.
Qed.

Lemma set_add_self s v : set_contains (set_add s v) v = true.
Proof.
  unfold set_add. destruct (set_contains s v) eqn:E; [exact E|].
  rewrite set_contains_app. simpl. rewrite py_eq_refl.
  rewrite orb_true_r. reflexivity.
Qed.

Lemma set_add_mono s v x :
  set_contains s x = true -> set_contains (set_add s v) x = true.
Proof.
  intros H. destruct (set_add_prefix s v) as [extra ->].
  rewrite set_contains_app, H. reflexivity.
Qed.

Lemma set_add_In s v e : In e (set_add s v) -> In e s \/ e = v.
Proof.
  unfold set_add. destruct (set_contains s v); [left; assumption|].
  intros H. apply in_app_or in H. destruct H as [H | [H | []]]; auto.
Qed.

Lemma set_update_prefix vs : forall s, exists extra, set_update s vs = s ++ extra.
Proof.
  unfold set_update. induction vs as [|v vs IH]; intros s; simpl.
  - exists []. symmetry. apply app_nil_r.
  - destruct (IH (set_add s v)) as [e2 ->].
    destruct (set_add_prefix s v) as [e1 ->].
    exists (e1 ++ e2). symmetry. apply app_assoc.
Qed.

Lemma set_update_mono vs s x :
  set_contains s x = true -> set_contains (set_update s vs) x = true.
Proof.
  intros H. destruct (set_update_prefix vs s) as [extra ->].
  rewrite set_contains_app, H. reflexivity.
Qed.

Lemma set_update_contains vs : forall s x,
  In x vs -> set_contains (set_update s vs) x = true.
Proof.
  induction vs as [|v vs IH]; intros s x; simpl; [intros []|].
  intros [-> | H].
  - apply (set_update_mono vs). apply set_add_self.
  - apply IH. exact H.
Qed.

Lemma set_update_In vs : forall s e,
  In e (set_update s vs) -> In e s \/ In e vs.
Proof.
  induction vs as [|v vs IH]; intros s e; simpl; [left; assumption|].
  intros H. apply IH in H. destruct H as [H | H]; [|right; right; exact H].
  apply set_add_In in H. destruct H as [H | ->]; [left; exact H | right; left; reflexivity].
Qed.

Lemma set_update_absorb vs : forall s,
  (forall x, In x vs -> set_contains s x = true) -> set_update s vs = s.
Proof.
  induction vs as [|v vs IH]; intros s H; simpl; [reflexivity|].
  assert (E : set_add s v = s).
  { unfold set_add. rewrite (H v (or_introl eq_refl)). reflexivity. }
  unfold set_update in IH. rewrite E. apply IH.
  intros x Hx. apply H. right. exact Hx.
Qed.

Lemma set_update_idem s vs : set_update (set_update s vs) vs = set_update s vs.
Proof.
  apply set_update_absorb. intros x Hx. apply set_update_contains. exact Hx.
Qed.

(** ** The order on names and [sorted] *)

Lemma leb_iff a b : String.leb a b = true <-> a = b \/ String_as_OT.lt a b.
Proof.
  unfold String.leb.
  destruct (String.compare a b) eqn:E.
  - apply String_as_OT.cmp_eq in E. tauto.
  - apply String_as_OT.cmp_lt in E. tauto.
  - split; [discriminate|].
    intros [H | H].
    + apply String_as_OT.cmp_eq in H. unfold String_as_OT.cmp in H. congruence.
    + apply String_as_OT.cmp_lt in H. unfold String_as_OT.cmp in H. congruence.
Qed.

Lemma leb_refl a : String.leb a a = true.
Proof. apply leb_iff. left. reflexivity. Qed.

Lemma leb_trans a b c :
  String.leb a b = true -> String.leb b c = true -> String.leb a c = true.
Proof.
  rewrite !leb_iff. intros [-> | H1] [-> | H2]; auto.
  right. exact (String_as_OT.lt_trans _ _ _ H1 H2).
Qed.

Lemma leb_false_flip a b : String.leb a b = false -> String.leb b a = true.
Proof.
  intros H. destruct (String.leb_total a b) as [E | E]; [congruence | exact E].
Qed.

Lemma insert_In x l y : In y (insert x l) <-> y = x \/ In y l.
Proof.
  induction l as [|h t IH]; simpl.
  - intuition.
  - destruct (String.leb x h); simpl; [intuition|].
    rewrite IH. intuition.
Qed.

Lemma insert_perm x l : Permutation (insert x l) (x :: l).
Proof.
  induction l as [|h t IH]; simpl.
  - apply Permutation_refl.
  - destruct (String.leb x h).
    + apply Permutation_refl.
    + eapply perm_trans; [apply perm_skip, IH | apply perm_swap].
Qed.

Lemma sorted_perm l : Permutation (sorted l) l.
Proof.
  induction l as [|x l IH]; simpl.
  - apply perm_nil.
  - eapply perm_trans; [apply insert_perm | apply perm_skip, IH].
Qed.

Lemma sorted_In l y : In y (sorted l) <-> In y l.
Proof.
  split; apply Permutation_in; [apply sorted_perm | apply Permutation_sym, sorted_perm].
Qed.

Lemma insert_sorted x l :
  StronglySorted str_le l -> StronglySorted str_le (insert x l).
Proof.
  induction 1 as [|h t Ht IH Hall]; simpl.
  - constructor; constructor.
  - destruct (String.leb x h) eqn:E.
    + constructor; [constructor; assumption|].
      constructor; [exact E|].
      eapply Forall_impl; [|exact Hall].
      intros y Hy. exact (leb_trans _ _ _ E Hy).
    + constructor; [exact IH|].
      apply Forall_forall. intros y Hy.
      apply insert_In in Hy. destruct Hy as [-> | Hy].
      * apply leb_false_flip. exact E.
      * rewrite Forall_forall in Hall. apply Hall. exact Hy.
Qed.

Lemma sorted_sorted l : StronglySorted str_le (sorted l).
Proof.
  induction l as [|x l IH]; simpl; [constructor | apply insert_sorted, IH].
Qed.

Lemma insert_comm x y l : insert x (insert y l) = insert y (insert x l).
Proof.
  induction l as [|h t IH]; simpl.
  - destruct (String.leb x y) eqn:Exy, (String.leb y x) eqn:Eyx; try reflexivity.
    + rewrite (String.leb_antisym _ _ Exy Eyx). reflexivity.
    + apply leb_false_flip in Exy. congruence.
  - destruct (String.leb y h) eqn:Eyh, (String.leb x h) eqn:Exh; simpl;
      rewrite ?Eyh, ?Exh.
    + destruct (String.leb x y) eqn:Exy, (String.leb y x) eqn:Eyx; try reflexivity.
      * rewrite (String.leb_antisym _ _ Exy Eyx). reflexivity.
      * apply leb_false_flip in Exy. congruence.
    + destruct (String.leb x y) eqn:Exy; [|reflexivity].
      rewrite (leb_trans _ _ _ Exy Eyh) in Exh. discriminate.
    + destruct (String.leb y x) eqn:Eyx; [|reflexivity].
      rewrite (leb_trans _ _ _ Eyx Exh) in Eyh. discriminate.
    + rewrite IH. reflexivity.
Qed.

(** Two listings of the same names sort to the same list. *)
Lemma sorted_permutation l l' : Permutation l l' -> sorted l = sorted l'.
Proof.
  induction 1 as [ | x l l' _ IH | x y l | l l' l'' _ IH1 _ IH2]; simpl.
  - reflexivity.
  - rewrite IH. reflexivity.
  - apply insert_comm.
  - congruence.
Qed.

(** ** The relevance predicate *)

Section Filter.

Variable str_hash : string -> Z.
Variable typing_dict : namespace.
Variable cwd : string.

Local Abbreviation is_hashable := (_is_hashable str_hash).
Local Abbreviation is_relevant := (_is_relevant str_hash cwd).
Local Abbreviation select := (select_names str_hash cwd).
Local Abbreviation relevant := (relevant_attributes str_hash typing_dict cwd).
Local Abbreviation typing_vals := (typing_values str_hash typing_dict).
Local Abbreviation raising := (raises str_hash cwd).
Local Abbreviation keeping := (keeps str_hash cwd).
Local Abbreviation calls_from := (run_calls str_hash typing_dict cwd).

(** [.startswith] on something that is not a [str] is the only way the
    predicate raises. *)
Lemma is_relevant_raise S attr name e :
  is_relevant S attr name = Raise e -> e = AttributeError.
Proof.
  unfold _is_relevant.
  destruct (excluded str_hash S attr name); [discriminate|].
  destruct (ismodule attr); [|discriminate].
  destruct (getattr_static attr "__file__" (VStr EmptyString)); intros H;
    try discriminate; injection H as <-; reflexivity.
Qed.

Lemma select_names_spec S ns :
  select S ns =
  if existsb (raising S) ns then Raise AttributeError
  else Ok (map fst (filter (keeping S) ns)).
Proof.
  induction ns as [|[name attr] ns IH]; simpl; [reflexivity|].
  unfold raises at 1, keeps at 1. simpl.
  destruct (startswith name "_"); simpl; [exact IH|].
  destruct (is_relevant S attr name) as [[|]|e] eqn:E; simpl.
  - rewrite IH. destruct (existsb (raising S) ns); reflexivity.
  - rewrite IH. destruct (existsb (raising S) ns); reflexivity.
  - rewrite (is_relevant_raise _ _ _ _ E). reflexivity.
Qed.

Lemma relevant_spec ns S :
  relevant ns S =
  let S' := set_update S typing_vals in
  (if existsb (raising S') ns then Raise AttributeError
   else Ok (sorted (map fst (filter (keeping S') ns))), S').
Proof.
  unfold relevant_attributes. simpl. rewrite select_names_spec.
  destruct (existsb _ ns); reflexivity.
Qed.

Lemma existsb_permutation {A} (f : A -> bool) l l' :
  Permutation l l' -> existsb f l = existsb f l'.
Proof.
  induction 1 as [ | x l l' _ IH | x y l | l l' l'' _ IH1 _ IH2]; simpl.
  - reflexivity.
  - rewrite IH. reflexivity.
  - destruct (f x), (f y); reflexivity.
  - congruence.
Qed.

Lemma filter_permutation {A} (f : A -> bool) l l' :
  Permutation l l' -> Permutation (filter f l) (filter f l').
Proof.
  induction 1 as [ | x l l' _ IH | x y l | l l' l'' _ IH1 _ IH2]; simpl.
  - apply perm_nil.
  - destruct (f x); [apply perm_skip|]; exact IH.
  - destruct (f x), (f y); try apply Permutation_refl. apply perm_swap.
  - eapply perm_trans; eassumption.
Qed.

Lemma keys_functional (ns : namespace) name a b :
  NoDup (map fst ns) -> In (name, a) ns -> In (name, b) ns -> a = b.
Proof.
  induction ns as [|[k v] ns IH]; simpl; [intros _ []|].
  intros Hnd Ha Hb. inversion Hnd as [|? ? Hk Hnd']; subst.
  destruct Ha as [Ha | Ha], Hb as [Hb | Hb].
  - congruence.
  - injection Ha as -> ->. exfalso. apply Hk.
    apply (in_map fst) in Hb. exact Hb.
  - injection Hb as -> ->. exfalso. apply Hk.
    apply (in_map fst) in Ha. exact Ha.
  - apply IH; assumption.
Qed.

(** A name of the result is bound, in the namespace, to a value the predicate
    accepts. *)
Lemma relevant_In ns S names S' name :
  relevant ns S = (Ok names, S') -> In name names ->
  exists attr, In (name, attr) ns /\ startswith name "_" = false
               /\ is_relevant S' attr name = Ok true.
Proof.
  rewrite relevant_spec. simpl.
  destruct (existsb _ ns); [discriminate|].
  intros H Hin. injection H as <- <-.
  apply (proj1 (sorted_In _ _)) in Hin. apply in_map_iff in Hin.
  destruct Hin as [[k attr] [Hk Hin]]. simpl in Hk. subst k.
  apply filter_In in Hin. destruct Hin as [Hin Hkeep].
  unfold keeps in Hkeep. simpl in Hkeep.
  apply andb_true_iff in Hkeep. destruct Hkeep as [Hpre Hrel].
  exists attr. split; [exact Hin|]. split.
  - apply negb_true_iff. exact Hpre.
  - destruct (is_relevant _ attr name) as [[|]|]; try discriminate. reflexivity.
Qed.

Lemma excluded_not_listed ns S names S' name attr :
  NoDup (map fst ns) -> In (name, attr) ns ->
  relevant ns S = (Ok names, S') ->
  is_relevant S' attr name = Ok false ->
  ~ In name names.
Proof.
  intros Hnd Hin Hrun Hrel Hname.
  destruct (relevant_In _ _ _ _ _ Hrun Hname) as [attr' [Hin' [_ Hrel']]].
  rewrite (keys_functional _ _ _ _ Hnd Hin Hin') in Hrel. congruence.
Qed.

Lemma excluded_is_relevant S attr name :
  excluded str_hash S attr name = true -> is_relevant S attr name = Ok false.
Proof. intros H. unfold _is_relevant. rewrite H. reflexivity. Qed.

Lemma member_excluded S attr name :
  is_hashable attr = true -> set_contains S attr = true ->
  excluded str_hash S attr name = true.
Proof.
  intros Hh Hm. unfold excluded. rewrite Hh, Hm. simpl.
  rewrite !orb_true_r. reflexivity.
Qed.


Lemma str_file_no_raise S attr name :
  (ismodule attr = true -> file_is_str attr) ->
  exists keep, is_relevant S attr name = Ok keep.
Proof.
  intros H. unfold _is_relevant.
  destruct (excluded str_hash S attr name); [eexists; reflexivity|].
  destruct (ismodule attr); [|eexists; reflexivity].
  specialize (H eq_refl). unfold file_is_str in H. unfold getattr_static.
  destruct (static_attr attr "__file__") as [[ | | | | | | ]|];
    try contradiction; eexists; reflexivity.
Qed.

Lemma str_files_no_raise S ns :
  modules_have_str_file ns -> existsb (raising S) ns = false.
Proof.
  intros H. apply not_true_is_false. intros E.
  apply existsb_exists in E. destruct E as [[name attr] [Hin Hr]].
  unfold raises in Hr. simpl in Hr.
  apply andb_true_iff in Hr. destruct Hr as [_ Hr].
  destruct (str_file_no_raise S attr name (H name attr Hin)) as [keep E].
  rewrite E in Hr. discriminate.
Qed.

(** What [relevant_attributes] hands to [set.update]. *)
Lemma typing_vals_In e :
  In e typing_vals <->
  exists k, In (k, e) typing_dict /\ startswith k "__" = false
            /\ is_hashable e = true.
Proof.
  unfold typing_values. rewrite in_map_iff. split.
  - intros [[k v] [E H]]. simpl in E. subst v.
    apply filter_In in H. destruct H as [Hin Hf]. simpl in Hf.
    apply andb_true_iff in Hf. destruct Hf as [Hk Hh].
    exists k. rewrite negb_true_iff in Hk. auto.
  - intros [k [Hin [Hk Hh]]]. exists (k, e). split; [reflexivity|].
    apply filter_In. split; [exact Hin|]. simpl. rewrite Hk, Hh. reflexivity.
Qed.

Lemma relevant_state ns S : snd (relevant ns S) = set_update S typing_vals.
Proof. reflexivity. Qed.

Lemma run_calls_prefix calls : forall S,
  exists extra, run_calls str_hash typing_dict cwd calls S = S ++ extra.
Proof.
  induction calls as [|ns calls IH]; intros S; simpl.
  - exists []. symmetry. apply app_nil_r.
  - destruct (IH (set_update S typing_vals)) as [e2 ->].
    destruct (set_update_prefix typing_vals S) as [e1 ->].
    exists (e1 ++ e2). symmetry. apply app_assoc.
Qed.

(** A member of the set after a call passes the guard, if it did as a member
    of the set before the call. *)
Lemma entered_is_hashable S v :
  (set_contains S v = true -> is_hashable v = true) ->
  set_contains (set_update S typing_vals) v = true ->
  is_hashable v = true.
Proof.
  intros Hold Hnew. unfold set_contains in Hnew.
  apply existsb_exists in Hnew. destruct Hnew as [e [Hin Heq]].
  apply set_update_In in Hin. destruct Hin as [Hin | Hin].
  - apply Hold. unfold set_contains. apply existsb_exists. exists e. auto.
  - apply typing_vals_In in Hin. destruct Hin as [k [_ [_ Hh]]].
    rewrite (py_eq_is_hashable str_hash v e Heq). exact Hh.
Qed.

(** ** The claims on the filter *)

(** C1 (the code departs from it): the hashability guard is meant to return
    true exactly when hashing does not raise [TypeError], so that membership in
    the exclusion set is tested for every hashable value.  At the integer [0]
    the hash is computed without error and is [0]; [bool(hash(obj))] is then
    false, the guard answers false and membership is not tested: with [0] in
    the set the entry is still not excluded, and a [0] bound in the
    typing-support namespace does not keep a name bound to [0] out of the
    result. *)
Theorem C1_guard_rejects_zero_hash :
  py_hash str_hash (VInt 0) = HashOk 0
  /\ is_hashable (VInt 0) = false
  /\ set_contains [VInt 0] (VInt 0) = true
  /\ excluded str_hash [VInt 0] (VInt 0) "ZERO" = false
  /\ is_relevant [VInt 0] (VInt 0) "ZERO" = Ok true
  /\ relevant_attributes str_hash [("ZERO", VInt 0)] cwd [("ZERO", VInt 0)] []
     = (Ok ["ZERO"], []).
Proof. repeat split. Qed.

(** C2 (amended): [relevant_attributes] extends the exclusion set with the
    values of the typing-support namespace whose name does not start with a
    double underscore: every such value whose hash is computed without error
    and is not zero is a member of the set afterwards, and an element of the
    set afterwards either was one before or is the value of such a name and
    has a hash. *)
Theorem C2_exclusion_set_extension (ns : namespace) (S : pyset) :
  (forall k v h, In (k, v) typing_dict -> startswith k "__" = false ->
     py_hash str_hash v = HashOk h -> h <> 0%Z ->
     set_contains (snd (relevant ns S)) v = true)
  /\ (forall e, In e (snd (relevant ns S)) ->
        In e S \/ exists k h, In (k, e) typing_dict /\ startswith k "__" = false
                              /\ py_hash str_hash e = HashOk h).
Proof.
  rewrite relevant_state. split.
  - intros k v h Hin Hk Hh Hnz. apply set_update_contains.
    apply typing_vals_In. exists k. split; [exact Hin|]. split; [exact Hk|].
    apply is_hashable_spec. exists h. auto.
  - intros e He. apply set_update_In in He. destruct He as [He | He]; [left; exact He|].
    right. apply typing_vals_In in He. destruct He as [k [Hin [Hk Hh]]].
    apply is_hashable_spec in Hh. destruct Hh as [h [Hh _]].
    exists k, h. auto.
Qed.

(** C5: the list [relevant_attributes] returns is sorted for the code-point
    order on names, and the outcome of a call is the same for two listings of
    one mapping, whatever their order; a list is returned whenever the
    [__file__] of the modules of the namespace is a string or absent. *)
Theorem C5_sorted_deterministic (ns ns' : namespace) (S : pyset) :
  Permutation ns ns' ->
  relevant ns' S = relevant ns S
  /\ (forall names S', relevant ns S = (Ok names, S') -> StronglySorted str_le names)
  /\ (modules_have_str_file ns -> exists names, fst (relevant ns S) = Ok names).
Proof.
  intros Hperm. split; [|split].
  - rewrite !relevant_spec. simpl.
    rewrite (existsb_permutation _ _ _ Hperm).
    destruct (existsb _ ns'); [reflexivity|].
    f_equal. f_equal. apply sorted_permutation.
    apply Permutation_map, filter_permutation, Permutation_sym, Hperm.
  - intros names S'. rewrite relevant_spec. simpl.
    destruct (existsb _ ns); [discriminate|].
    intros H. injection H as <- _. apply sorted_sorted.
  - intros Hfiles. rewrite relevant_spec. simpl.
    rewrite (str_files_no_raise _ _ Hfiles). eexists; reflexivity.
Qed.

(** C6: for a sub-module that no exclusion rule applies to, the predicate
    answers true exactly when the module has a static [__file__] that is a
    string starting with the current working directory; a module without
    [__file__], or with a path outside that directory, is excluded. *)
Theorem C6_submodule_relevance (S : pyset) (attr : value) (name : string) :
  cwd <> EmptyString -> ismodule attr = true -> excluded str_hash S attr name = false ->
  (is_relevant S attr name = Ok true <->
   exists path, static_attr attr "__file__" = Some (VStr path)
                /\ startswith path cwd = true)
  /\ (static_attr attr "__file__" = None -> is_relevant S attr name = Ok false)
  /\ (forall path, static_attr attr "__file__" = Some (VStr path) ->
        startswith path cwd = false -> is_relevant S attr name = Ok false).
Proof.
  intros Hcwd Hmod Hex. unfold _is_relevant. rewrite Hex, Hmod.
  unfold getattr_static.
  assert (Hempty : startswith EmptyString cwd = false).
  { unfold startswith. destruct cwd; [contradiction | reflexivity]. }
  destruct (static_attr attr "__file__") as [v|].
  - split; [|split].
    + split.
      * destruct v; try discriminate. intros H. injection H as H. eauto.
      * intros [path [E H]]. injection E as ->. rewrite H. reflexivity.
    + discriminate.
    + intros path E H. injection E as ->. rewrite H. reflexivity.
  - rewrite Hempty. split; [|split].
    + split; [discriminate | intros [path [E _]]; discriminate].
    + reflexivity.
    + discriminate.
Qed.

(** C7: a value that statically carries a truthy [_deprecated] or
    [__deprecated__] is rejected by the predicate under every name, and a
    namespace that binds only such a value yields the empty list. *)
Theorem C7_deprecated_excluded (S : pyset) (attr marker : value) (name : string) :
  static_attr attr "_deprecated" = Some marker
  \/ static_attr attr "__deprecated__" = Some marker ->
  truthy marker = true ->
  (forall S', is_relevant S' attr name = Ok false)
  /\ fst (relevant [(name, attr)] S) = Ok [].
Proof.
  intros Hattr Htruthy.
  assert (Hrel : forall S', is_relevant S' attr name = Ok false).
  { intros S'. apply excluded_is_relevant. unfold excluded, getattr_static.
    destruct Hattr as [-> | ->]; rewrite Htruthy; simpl;
      rewrite ?orb_true_r; reflexivity. }
  split; [exact Hrel|].
  unfold relevant_attributes. simpl.
  destruct (startswith name "_"); simpl; [reflexivity|].
  rewrite Hrel. reflexivity.
Qed.

(** C8: a second call of [relevant_attributes] on the same namespace, in the
    exclusion set the first call left, has the outcome of the first call and
    leaves that set as it is. *)
Theorem C8_second_call_same_result (ns : namespace) (S : pyset) :
  relevant ns (snd (relevant ns S)) = relevant ns S.
Proof.
  unfold relevant_attributes. simpl. rewrite set_update_idem. reflexivity.
Qed.

(** C9: [TYPE_CHECKING] is [False] at runtime and is compared by identity, so
    an entry bound to [False] is rejected under every name and its name is not
    in the result. *)
Theorem C9_false_value_excluded (ns : namespace) (S : pyset) (name : string)
    (names : list string) (S' : pyset) :
  NoDup (map fst ns) -> In (name, VBool false) ns ->
  relevant ns S = (Ok names, S') ->
  TYPE_CHECKING = VBool false
  /\ (forall S1 name1, is_relevant S1 (VBool false) name1 = Ok false)
  /\ ~ In name names.
Proof.
  intros Hnd Hin Hrun. split; [reflexivity|].
  assert (Hrel : forall S1 name1, is_relevant S1 (VBool false) name1 = Ok false).
  { intros S1 name1. reflexivity. }
  split; [exact Hrel|].
  eapply excluded_not_listed; eauto.
Qed.

(** C10: the exclusion set only grows, each call appending to it; a value that
    is a member of the set after a call stays a member through every later
    call, and a later call on any namespace leaves out the name bound to it.
    A member of the set the first call started from is taken to pass the
    guard, as the typing constructs of the literal do; a value that entered
    during the call does. *)
Theorem C10_exclusion_set_grows (S0 : pyset) (first : namespace)
    (calls : list namespace) (ns : namespace) (v : value) (name : string) :
  (set_contains S0 v = true -> is_hashable v = true) ->
  set_contains (snd (relevant first S0)) v = true ->
  (exists extra, snd (relevant first S0) = S0 ++ extra)
  /\ (exists extra,
        calls_from calls (snd (relevant first S0)) = snd (relevant first S0) ++ extra)
  /\ set_contains (calls_from calls (snd (relevant first S0))) v = true
  /\ (NoDup (map fst ns) -> In (name, v) ns ->
      forall names S3,
        relevant ns (calls_from calls (snd (relevant first S0))) = (Ok names, S3) ->
        ~ In name names).
Proof.
  set (S1 := snd (relevant first S0)).
  set (S2 := calls_from calls S1).
  intros Hold Hin.
  assert (Hgrow : exists extra, S2 = S1 ++ extra) by apply run_calls_prefix.
  assert (Hin2 : set_contains S2 v = true).
  { destruct Hgrow as [extra ->]. rewrite set_contains_app, Hin. reflexivity. }
  split; [apply set_update_prefix|]. split; [exact Hgrow|]. split; [exact Hin2|].
  intros Hnd Hbound names S3 Hrun.
  eapply excluded_not_listed; eauto.
  apply excluded_is_relevant. apply member_excluded.
  - apply (entered_is_hashable S0); assumption.
  - assert (E : S3 = set_update S2 typing_vals).
    { rewrite <- relevant_state with (ns := ns). rewrite Hrun. reflexivity. }
    rewrite E. apply set_update_mono. exact Hin2.
Qed.

End Filter.

(** ** The scan for the boundaries of the declaration *)

Lemma startswith_head line a p :
  startswith line (String a p) = true -> exists rest, line = String a rest.
Proof.
  unfold startswith. destruct line as [|c rest]; simpl; [discriminate|].
  destruct (ascii_dec a c) as [-> | _]; [|discriminate].
  intros _. exists rest. reflexivity.
Qed.

Lemma startswith_other_head a c rest p :
  a <> c -> startswith (String c rest) (String a p) = false.
Proof.
  intros H. unfold startswith. simpl.
  destruct (ascii_dec a c) as [e | _]; [contradiction | reflexivity].
Qed.

Lemma decl_not_close line :
  startswith line "__all__ =" = true -> startswith line "]" = false.
Proof.
  intros H. apply startswith_head in H. destruct H as [rest ->].
  apply startswith_other_head. intros e. discriminate e.
Qed.

Lemma firstn_length_app {A} (l r : list A) : firstn (List.length l) (l ++ r) = l.
Proof.
  induction l as [|x l IH]; simpl; [destruct r; reflexivity|].
  rewrite IH. reflexivity.
Qed.

Lemma skipn_length_app {A} (l r : list A) : skipn (List.length l) (l ++ r) = r.
Proof. induction l as [|x l IH]; simpl; [reflexivity | exact IH]. Qed.

Lemma no_close_after_decl_nil : no_close_after_decl [].
Proof. intros [|? ?] decl post E; discriminate. Qed.

Lemma no_close_after_decl_skip line pre :
  startswith line "__all__ =" = false ->
  no_close_after_decl pre -> no_close_after_decl (line :: pre).
Proof.
  intros Hline H [|x p] decl post E Hdecl l Hl.
  - injection E as -> ->. congruence.
  - injection E as -> E. exact (H p decl post E Hdecl l Hl).
Qed.

Lemma no_close_after_decl_quiet line rest :
  (forall l, In l rest -> startswith l "]" = false) ->
  no_close_after_decl (line :: rest).
Proof.
  intros H [|x p] decl post E Hdecl l Hl.
  - injection E as -> ->. apply H. exact Hl.
  - injection E as -> ->. apply H. apply in_or_app. right. right. exact Hl.
Qed.

Lemma no_decl_no_close_after lines :
  (forall line, In line lines -> startswith line "__all__ =" = false) ->
  no_close_after_decl lines.
Proof.
  intros H pre decl post -> Hdecl.
  rewrite H in Hdecl; [discriminate|]. apply in_or_app. right. left. reflexivity.
Qed.

(** Once the opening line is known, the loop ends without a closing line when
    no later line starts with a bracket. *)
Lemma scan_quiet lines :
  (forall l, In l lines -> startswith l "]" = false) ->
  forall idx first, snd (scan lines idx first) = None.
Proof.
  induction lines as [|line rest IH]; intros H idx first; simpl; [reflexivity|].
  assert (Hrest : forall l, In l rest -> startswith l "]" = false).
  { intros l Hl. apply H. right. exact Hl. }
  destruct (startswith line "__all__ ="); [apply IH; exact Hrest|].
  rewrite (H line (or_introl eq_refl)), andb_false_r.
  apply IH. exact Hrest.
Qed.

Lemma scan_unclosed lines :
  no_close_after_decl lines -> forall idx, snd (scan lines idx None) = None.
Proof.
  induction lines as [|line rest IH]; intros H idx; simpl; [reflexivity|].
  destruct (startswith line "__all__ =") eqn:Hdecl.
  - apply scan_quiet. intros l Hl.
    exact (H [] line rest eq_refl Hdecl l Hl).
  - simpl. apply IH. intros pre decl post E Hd l Hl.
    apply (H (line :: pre) decl post); [rewrite E; reflexivity | exact Hd | exact Hl].
Qed.

(** The loop entered with the opening line already seen at index [f]. *)
Lemma scan_armed lines : forall idx f i j,
  scan lines idx (Some f) = (Some i, Some j) ->
  exists blk closing post,
    lines = blk ++ closing :: post
    /\ j = idx + List.length blk
    /\ startswith closing "]" = true
    /\ (forall l, In l blk -> startswith l "]" = false)
    /\ ((i = f /\ forall l, In l blk -> startswith l "__all__ =" = false)
        \/ exists b1 opening b2,
             blk = b1 ++ opening :: b2
             /\ startswith opening "__all__ =" = true
             /\ i = idx + List.length b1
             /\ forall l, In l b2 -> startswith l "__all__ =" = false).
Proof.
  induction lines as [|line rest IH]; intros idx f i j; simpl; [discriminate|].
  destruct (startswith line "__all__ =") eqn:Hdecl.
  - intros H. apply IH in H.
    destruct H as [blk [closing [post [-> [-> [Hc [Hq Hcase]]]]]]].
    exists (line :: blk), closing, post.
    split; [reflexivity|]. split; [simpl; lia|]. split; [exact Hc|]. split.
    { intros l [<- | Hl]; [apply decl_not_close; exact Hdecl | apply Hq; exact Hl]. }
    right. destruct Hcase as [[-> Hnd] | [b1 [opening [b2 [-> [Ho [-> Hnd]]]]]]].
    + exists [], line, blk. repeat split; [exact Hdecl | simpl; lia | exact Hnd].
    + exists (line :: b1), opening, b2.
      repeat split; [exact Ho | simpl; lia | exact Hnd].
  - simpl. destruct (startswith line "]") eqn:Hclose.
    + intros H. injection H as <- <-.
      exists [], line, rest.
      split; [reflexivity|]. split; [simpl; lia|]. split; [exact Hclose|].
      split; [intros l []|]. left. split; [reflexivity | intros l []].
    + intros H. apply IH in H.
      destruct H as [blk [closing [post [-> [-> [Hc [Hq Hcase]]]]]]].
      exists (line :: blk), closing, post.
      split; [reflexivity|]. split; [simpl; lia|]. split; [exact Hc|]. split.
      { intros l [<- | Hl]; [exact Hclose | apply Hq; exact Hl]. }
      destruct Hcase as [[-> Hnd] | [b1 [opening [b2 [-> [Ho [-> Hnd]]]]]]].
      * left. split; [reflexivity|].
        intros l [<- | Hl]; [exact Hdecl | apply Hnd; exact Hl].
      * right. exists (line :: b1), opening, b2.
        repeat split; [exact Ho | simpl; lia | exact Hnd].
Qed.

(** The two indices the loop finds: the last line opening the declaration
    before the first bracket line that follows one. *)
Lemma scan_boundaries lines : forall idx i j,
  scan lines idx None = (Some i, Some j) ->
  exists pre opening block closing post,
    lines = pre ++ opening :: block ++ closing :: post
    /\ i = idx + List.length pre
    /\ j = i + 1 + List.length block
    /\ startswith opening "__all__ =" = true
    /\ startswith closing "]" = true
    /\ (forall l, In l block ->
          startswith l "__all__ =" = false /\ startswith l "]" = false)
    /\ no_close_after_decl pre.
Proof.
  induction lines as [|line rest IH]; intros idx i j; simpl; [discriminate|].
  destruct (startswith line "__all__ =") eqn:Hdecl.
  - intros H. apply scan_armed in H.
    destruct H as [blk [closing [post [-> [-> [Hc [Hq Hcase]]]]]]].
    destruct Hcase as [[-> Hnd] | [b1 [opening [b2 [-> [Ho [-> Hnd]]]]]]].
    + exists [], line, blk, closing, post.
      split; [reflexivity|]. split; [simpl; lia|]. split; [simpl; lia|].
      split; [exact Hdecl|]. split; [exact Hc|]. split.
      * intros l Hl. split; [apply Hnd | apply Hq]; exact Hl.
      * apply no_close_after_decl_nil.
    + exists (line :: b1), opening, b2, closing, post.
      split; [simpl; rewrite <- app_assoc; reflexivity|].
      split; [simpl; lia|].
      split; [rewrite length_app; simpl; lia|].
      split; [exact Ho|]. split; [exact Hc|]. split.
      * intros l Hl. split; [apply Hnd; exact Hl|].
        apply Hq. apply in_or_app. right. right. exact Hl.
      * apply no_close_after_decl_quiet. intros l Hl.
        apply Hq. apply in_or_app. left. exact Hl.
  - simpl. intros H. apply IH in H.
    destruct H as [pre [opening [block [closing [post
      [-> [-> [-> [Ho [Hc [Hblock Hpre]]]]]]]]]]].
    exists (line :: pre), opening, block, closing, post.
    split; [reflexivity|]. split; [simpl; lia|]. split; [simpl; lia|].
    split; [exact Ho|]. split; [exact Hc|]. split; [exact Hblock|].
    apply no_close_after_decl_skip; assumption.
Qed.

(** ** The claims on the splice *)

Section Splice.

Variable str_hash : string -> Z.
Variable typing_dict : namespace.
Variable cwd : string.
Variable alt_dict : namespace.
Variable write_lint_format : list string -> list string.

Local Abbreviation update :=
  (update__all__variable str_hash typing_dict cwd alt_dict write_lint_format).
Local Abbreviation relevant := (relevant_attributes str_hash typing_dict cwd).

(** C3: when no line of the file opens the declaration, or no line starting
    with a closing bracket comes after a line that opens it, the run ends in
    an assertion failure and leaves everything as it was: the file, the
    exclusion set (the new list is not computed) and the line sequences handed
    to the formatter. *)
Theorem C3_missing_markers_abort (w : world) :
  (forall line, In line (map strip_nl (init_file w)) ->
     startswith line "__all__ =" = false)
  \/ no_close_after_decl (map strip_nl (init_file w)) ->
  update w = (Raise AssertionError, w).
Proof.
  intros H.
  assert (Hnc : no_close_after_decl (map strip_nl (init_file w))).
  { destruct H as [H | H]; [apply no_decl_no_close_after; exact H | exact H]. }
  pose proof (scan_unclosed _ Hnc 0) as Hscan.
  unfold update__all__variable.
  destruct (scan (map strip_nl (init_file w)) 0 None) as [[i|] [j|]];
    simpl in Hscan; try discriminate; reflexivity.
Qed.

(** C4: on a successful run the stripped lines of the file split into the
    lines before the opening line, the opening line, the lines up to the
    closing line, the closing line and the lines after it; the formatter is
    handed the lines before, one line assigning the rendering of the sorted
    names to [__all__], and the lines after, and nothing else. *)
Theorem C4_splice_frame (w : world) :
  fst (update w) = Ok tt ->
  exists pre opening block closing post names,
    map strip_nl (init_file w) = pre ++ opening :: block ++ closing :: post
    /\ startswith opening "__all__ =" = true
    /\ startswith closing "]" = true
    /\ (forall l, In l block ->
          startswith l "__all__ =" = false /\ startswith l "]" = false)
    /\ no_close_after_decl pre
    /\ fst (relevant alt_dict (constructs_of w)) = Ok names
    /\ StronglySorted str_le names
    /\ handed (snd (update w)) =
         handed w ++ [pre ++ [("__all__ = " ++ py_str_list names)%string] ++ post]
    /\ init_file (snd (update w)) =
         write_lint_format
           (pre ++ [("__all__ = " ++ py_str_list names)%string] ++ post).
Proof.
  unfold update__all__variable. cbv zeta.
  destruct (scan (map strip_nl (init_file w)) 0 None) as [[i|] [j|]] eqn:Hscan;
    cbn [fst snd]; try discriminate.
  destruct (relevant alt_dict (constructs_of w)) as [[names|e] S1] eqn:Hrel;
    cbn [fst snd handed init_file]; try discriminate.
  intros _. apply scan_boundaries in Hscan.
  destruct Hscan as [pre [opening [block [closing [post
    [Hlines [Hi [Hj [Ho [Hc [Hblock Hpre]]]]]]]]]]].
  exists pre, opening, block, closing, post, names.
  assert (Hfirst : firstn i (map strip_nl (init_file w)) = pre).
  { rewrite Hlines, Hi. simpl. apply firstn_length_app. }
  assert (Hskip : skipn (j + 1) (map strip_nl (init_file w)) = post).
  { rewrite Hlines.
    replace (pre ++ opening :: block ++ closing :: post)
      with ((pre ++ opening :: block ++ [closing]) ++ post).
    - replace (j + 1) with (List.length (pre ++ opening :: block ++ [closing])).
      + apply skipn_length_app.
      + rewrite length_app. simpl. rewrite length_app. simpl. lia.
    - rewrite <- app_assoc. simpl. rewrite <- app_assoc. reflexivity. }
  rewrite Hfirst, Hskip.
  assert (Hsorted : StronglySorted str_le names).
  { rewrite relevant_spec in Hrel. simpl in Hrel.
    destruct (existsb _ alt_dict); [discriminate|].
    injection Hrel as <- _. apply sorted_sorted. }
  split; [exact Hlines|]. split; [exact Ho|]. split; [exact Hc|].
  split; [exact Hblock|]. split; [exact Hpre|]. split; [reflexivity|].
  split; [exact Hsorted|]. split; reflexivity.
Qed.

End Splice.

(** ** The script on concrete inputs *)

Ltac distinct_keys :=
  repeat (constructor;
          [ simpl; intros H;
            repeat (destruct H as [H | H]; [discriminate H|]); exact H
          | ]);
  constructor.

(** C2 as first stated fails: the name [_T] of the typing-support namespace
    starts with an underscore, and its value enters the exclusion set all the
    same. *)
Lemma C2_counterexample :
  ~ (set_contains
       (snd (relevant_attributes sample_str_hash [("_T", VObject 5 [])] "/proj" [] []))
       (VObject 5 []) = true
     <-> startswith "_T" "_" = false
         /\ _is_hashable sample_str_hash (VObject 5 []) = true).
Proof.
  intros [H _]. destruct (H eq_refl) as [E _]. discriminate E.
Qed.

Lemma C2_witness :
  In ("Map", VObject 6 []) sample_typing_dict
  /\ startswith "Map" "__" = false
  /\ py_hash sample_str_hash (VObject 6 []) = HashOk 6
  /\ set_contains
       (snd (relevant_attributes sample_str_hash sample_typing_dict "/proj"
               sample_namespace []))
       (VObject 6 []) = true.
Proof.
  assert (Hin : In ("Map", VObject 6 []) sample_typing_dict).
  { simpl. right. right. left. reflexivity. }
  split; [exact Hin|]. split; [reflexivity|]. split; [reflexivity|].
  apply (proj1 (C2_exclusion_set_extension sample_str_hash sample_typing_dict
                  "/proj" sample_namespace []) "Map" (VObject 6 []) 6%Z).
  - exact Hin.
  - reflexivity.
  - reflexivity.
  - discriminate.
Defined.

Lemma C3_witness :
  let w := World [("__all__ = [" ++ String newline EmptyString)%string;
                  ("    'Chart'," ++ String newline EmptyString)%string] [] [] in
  no_close_after_decl (map strip_nl (init_file w))
  /\ update__all__variable sample_str_hash sample_typing_dict "/proj"
       sample_namespace (fun lines => lines) w = (Raise AssertionError, w).
Proof.
  intros w.
  assert (H : no_close_after_decl (map strip_nl (init_file w))).
  { apply no_close_after_decl_quiet. intros l [<- | []]. reflexivity. }
  split; [exact H|].
  apply C3_missing_markers_abort. right. exact H.
Defined.

Lemma C4_witness :
  let w := World sample_init_file [] [] in
  let run := update__all__variable sample_str_hash sample_typing_dict "/proj"
               sample_namespace (fun lines => lines) in
  fst (run w) = Ok tt
  /\ exists pre opening block closing post names,
       map strip_nl (init_file w) = pre ++ opening :: block ++ closing :: post
       /\ startswith opening "__all__ =" = true
       /\ startswith closing "]" = true
       /\ (forall l, In l block ->
             startswith l "__all__ =" = false /\ startswith l "]" = false)
       /\ no_close_after_decl pre
       /\ fst (relevant_attributes sample_str_hash sample_typing_dict "/proj"
                 sample_namespace (constructs_of w)) = Ok names
       /\ StronglySorted str_le names
       /\ handed (snd (run w)) =
            handed w ++ [pre ++ [("__all__ = " ++ py_str_list names)%string] ++ post]
       /\ init_file (snd (run w)) =
            pre ++ [("__all__ = " ++ py_str_list names)%string] ++ post.
Proof.
  intros w run. split; [reflexivity|].
  apply (C4_splice_frame sample_str_hash sample_typing_dict "/proj"
           sample_namespace (fun lines => lines) w).
  reflexivity.
Defined.

Lemma C5_witness :
  let ns := [("b", VInt 1); ("a", VInt 2)] in
  let ns' := [("a", VInt 2); ("b", VInt 1)] in
  Permutation ns ns'
  /\ relevant_attributes sample_str_hash sample_typing_dict "/proj" ns' []
     = relevant_attributes sample_str_hash sample_typing_dict "/proj" ns [].
Proof.
  intros ns ns'. split; [apply perm_swap|].
  apply (C5_sorted_deterministic sample_str_hash sample_typing_dict "/proj" ns ns' []).
  apply perm_swap.
Defined.

Lemma C6_witness :
  let utils := VModule 7 [("__file__", VStr "/proj/altair/utils/__init__.py")] in
  "/proj" <> EmptyString
  /\ ismodule utils = true
  /\ excluded sample_str_hash [] utils "utils" = false
  /\ (_is_relevant sample_str_hash "/proj" [] utils "utils" = Ok true <->
      exists path, static_attr utils "__file__" = Some (VStr path)
                   /\ startswith path "/proj" = true).
Proof.
  intros utils.
  assert (Hcwd : "/proj" <> EmptyString) by discriminate.
  split; [exact Hcwd|]. split; [reflexivity|]. split; [reflexivity|].
  apply (C6_submodule_relevance sample_str_hash "/proj" [] utils "utils").
  - exact Hcwd.
  - reflexivity.
  - reflexivity.
Defined.

Lemma C7_witness :
  let old := VObject 9 [("_deprecated", VBool true)] in
  static_attr old "_deprecated" = Some (VBool true)
  /\ truthy (VBool true) = true
  /\ fst (relevant_attributes sample_str_hash sample_typing_dict "/proj"
            [("OldChart", old)] []) = Ok [].
Proof.
  intros old. split; [reflexivity|]. split; [reflexivity|].
  apply (C7_deprecated_excluded sample_str_hash sample_typing_dict "/proj" []
           old (VBool true) "OldChart").
  - left. reflexivity.
  - reflexivity.
Defined.

Lemma C9_witness :
  NoDup (map fst sample_namespace)
  /\ In ("TYPE_CHECKING", VBool false) sample_namespace
  /\ relevant_attributes sample_str_hash sample_typing_dict "/proj" sample_namespace []
     = (Ok ["Chart"; "config_list"; "utils"], [VObject 5 []; VObject 6 []])
  /\ ~ In "TYPE_CHECKING" ["Chart"; "config_list"; "utils"].
Proof.
  assert (Hnd : NoDup (map fst sample_namespace)) by (simpl; distinct_keys).
  assert (Hin : In ("TYPE_CHECKING", VBool false) sample_namespace).
  { simpl. do 3 right. left. reflexivity. }
  split; [exact Hnd|]. split; [exact Hin|]. split; [reflexivity|].
  apply (C9_false_value_excluded sample_str_hash sample_typing_dict "/proj"
           sample_namespace [] "TYPE_CHECKING" ["Chart"; "config_list"; "utils"]
           [VObject 5 []; VObject 6 []] Hnd Hin eq_refl).
Defined.

Lemma C10_witness :
  let map_alias := VObject 6 [] in
  let other := [("Alias", map_alias); ("Chart", VObject 1 [])] in
  set_contains
    (snd (relevant_attributes sample_str_hash sample_typing_dict "/proj"
            sample_namespace [])) map_alias = true
  /\ NoDup (map fst other)
  /\ In ("Alias", map_alias) other
  /\ forall names S3,
       relevant_attributes sample_str_hash sample_typing_dict "/proj" other
         (run_calls sample_str_hash sample_typing_dict "/proj" [sample_namespace]
            (snd (relevant_attributes sample_str_hash sample_typing_dict "/proj"
                    sample_namespace []))) = (Ok names, S3) ->
       ~ In "Alias" names.
Proof.
  intros map_alias other.
  assert (Hnd : NoDup (map fst other)) by (simpl; distinct_keys).
  assert (Hin : In ("Alias", map_alias) other) by (left; reflexivity).
  split; [reflexivity|]. split; [exact Hnd|]. split; [exact Hin|].
  apply (C10_exclusion_set_grows sample_str_hash sample_typing_dict "/proj" []
           sample_namespace [sample_namespace] other map_alias "Alias").
  - intros _. reflexivity.
  - reflexivity.
  - exact Hnd.
  - exact Hin.
Defined.

(** * Further properties of the script *)

(** ** Equality of values is an equivalence *)

Lemma py_eq_sym : forall a b, py_eq a b = py_eq b a.
Proof.
  fix IH 1. intros a b.
  destruct a as [ | x | x | x | xs | i ? | i ?],
           b as [ | y | y | y | ys | j ? | j ?]; simpl; try reflexivity.
  - destruct x, y; reflexivity.
  - apply Z.eqb_sym.
  - apply String.eqb_sym.
  - revert ys. induction xs as [|x xs IHxs]; intros [|y ys]; try reflexivity.
    rewrite (IH x y), IHxs. reflexivity.
  - apply Pos.eqb_sym.
  - apply Pos.eqb_sym.
Qed.

Lemma py_eq_trans : forall a b c,
  py_eq a b = true -> py_eq b c = true -> py_eq a c = true.
Proof.
  fix IH 1. intros a b c.
  destruct a as [ | x | x | x | xs | i ? | i ?],
           b as [ | y | y | y | ys | j ? | j ?]; simpl; try discriminate;
  destruct c as [ | z | z | z | zs | k ? | k ?]; simpl; try discriminate;
  try (intros H1 H2;
       rewrite ?Z.eqb_eq, ?String.eqb_eq, ?Pos.eqb_eq, ?Bool.eqb_true_iff in *;
       subst; try reflexivity;
       repeat match goal with b : bool |- _ => destruct b end;
       try reflexivity; try discriminate; fail).
  revert ys zs. induction xs as [|x xs IHxs]; intros [|y ys] [|z zs];
    try discriminate; try reflexivity.
  intros H1 H2.
  apply andb_true_iff in H1. destruct H1 as [H1 H1'].
  apply andb_true_iff in H2. destruct H2 as [H2 H2'].
  rewrite (IH x y z H1 H2). simpl. exact (IHxs ys zs H1' H2').
Qed.

(** ** Membership in the exclusion set after an update *)

Lemma set_add_contains s v x :
  set_contains (set_add s v) x = set_contains s x || py_eq x v.
Proof.
  unfold set_add. destruct (set_contains s v) eqn:E.
  - destruct (py_eq x v) eqn:Exv; [|rewrite orb_false_r; reflexivity].
    unfold set_contains in E. apply existsb_exists in E.
    destruct E as [e [Hin Hve]].
    assert (H : set_contains s x = true).
    { unfold set_contains. apply existsb_exists. exists e.
      split; [exact Hin | exact (py_eq_trans _ _ _ Exv Hve)]. }
    rewrite H. reflexivity.
  - rewrite set_contains_app. simpl. rewrite orb_false_r. reflexivity.
Qed.

Lemma set_update_contains_eq vs : forall s x,
  set_contains (set_update s vs) x = set_contains s x || existsb (py_eq x) vs.
Proof.
  unfold set_update.
  induction vs as [|v vs IH]; intros s x; simpl.
  - rewrite orb_false_r. reflexivity.
  - rewrite IH, set_add_contains, orb_assoc. reflexivity.
Qed.

(** ** Further properties of the relevance filter *)

Section FilterMore.

Variable str_hash : string -> Z.
Variable typing_dict : namespace.
Variable cwd : string.

Local Abbreviation is_hashable := (_is_hashable str_hash).
Local Abbreviation is_relevant := (_is_relevant str_hash cwd).
Local Abbreviation relevant := (relevant_attributes str_hash typing_dict cwd).
Local Abbreviation typing_vals := (typing_values str_hash typing_dict).
Local Abbreviation raising := (raises str_hash cwd).
Local Abbreviation keeping := (keeps str_hash cwd).
Local Abbreviation calls_from := (run_calls str_hash typing_dict cwd).

Lemma is_relevant_true S attr name :
  is_relevant S attr name = Ok true ->
  excluded str_hash S attr name = false
  /\ (ismodule attr = true ->
      exists path, getattr_static attr "__file__" (VStr EmptyString) = VStr path
                   /\ startswith path cwd = true).
Proof.
  unfold _is_relevant.
  destruct (excluded str_hash S attr name); [discriminate|].
  intros H. split; [reflexivity|]. intros Hmod. rewrite Hmod in H.
  destruct (getattr_static attr "__file__" (VStr EmptyString)); try discriminate.
  injection H as H. eauto.
Qed.

Lemma relevant_listed ns S names S' name attr :
  relevant ns S = (Ok names, S') ->
  In (name, attr) ns -> startswith name "_" = false ->
  is_relevant S' attr name = Ok true ->
  In name names.
Proof.
  rewrite relevant_spec. simpl.
  destruct (existsb _ ns); [discriminate|].
  intros H Hin Hpub Hrel. injection H as <- <-.
  apply sorted_In. apply in_map_iff. exists (name, attr).
  split; [reflexivity|]. apply filter_In. split; [exact Hin|].
  unfold keeps. simpl. rewrite Hpub, Hrel. reflexivity.
Qed.

(** X1: a name of the result is bound in the namespace, does not start with
    an underscore, is neither [pd] nor [jsonschema], and the value it is bound
    to is not [False], carries no truthy deprecation marker, is not a member
    of the exclusion set if the guard lets it through, and if it is a module
    has a [__file__] string starting with the working directory. *)
Theorem listed_names_sound (ns : namespace) (S : pyset) (names : list string)
    (S' : pyset) (name : string) :
  relevant ns S = (Ok names, S') -> In name names ->
  startswith name "_" = false /\ name <> "pd" /\ name <> "jsonschema"
  /\ exists attr,
       In (name, attr) ns
       /\ attr <> VBool false
       /\ truthy (getattr_static attr "_deprecated" (VBool false)) = false
       /\ truthy (getattr_static attr "__deprecated__" (VBool false)) = false
       /\ (is_hashable attr = true -> set_contains S' attr = false)
       /\ (ismodule attr = true ->
           exists path,
             getattr_static attr "__file__" (VStr EmptyString) = VStr path
             /\ startswith path cwd = true).
Proof.
  intros Hrun Hin.
  destruct (relevant_In _ _ _ _ _ _ _ _ Hrun Hin) as [attr [Hb [Hpub Hrel]]].
  apply is_relevant_true in Hrel. destruct Hrel as [Hex Hmod].
  unfold excluded in Hex.
  repeat (apply orb_false_iff in Hex; destruct Hex as [Hex ?]).
  split; [exact Hpub|].
  split; [intros ->; discriminate|]. split; [intros ->; discriminate|].
  exists attr. split; [exact Hb|]. split.
  { intros ->. discriminate. }
  split; [exact Hex|]. split; [assumption|]. split; [|exact Hmod].
  intros Hh. match goal with H : is_hashable attr && _ = false |- _ =>
    rewrite Hh in H; exact H end.
Qed.

(** X2: with distinct keys, a successful call lists the name of an entry
    exactly when the name does not start with an underscore and the predicate
    accepts its value in the exclusion set the call leaves. *)
Theorem listed_iff_accepted (ns : namespace) (S : pyset) (names : list string)
    (S' : pyset) (name : string) (attr : value) :
  NoDup (map fst ns) -> In (name, attr) ns ->
  relevant ns S = (Ok names, S') ->
  (In name names <->
   startswith name "_" = false /\ is_relevant S' attr name = Ok true).
Proof.
  intros Hnd Hb Hrun. split.
  - intros Hin.
    destruct (relevant_In _ _ _ _ _ _ _ _ Hrun Hin) as [attr' [Hb' [Hpub Hrel]]].
    rewrite (keys_functional _ _ _ _ Hnd Hb Hb'). auto.
  - intros [Hpub Hrel]. eapply relevant_listed; eauto.
Qed.

Lemma NoDup_keys_filter (f : string * value -> bool) (ns : namespace) :
  NoDup (map fst ns) -> NoDup (map fst (filter f ns)).
Proof.
  induction ns as [|[k v] ns IH]; simpl; [intros _; constructor|].
  intros H. inversion H as [|? ? Hk Hnd]; subst.
  destruct (f (k, v)); simpl; [|apply IH; exact Hnd].
  constructor; [|apply IH; exact Hnd].
  intros Hin. apply Hk. apply in_map_iff in Hin.
  destruct Hin as [[k' v'] [E Hin]]. simpl in E. subst k'.
  apply filter_In in Hin. destruct Hin as [Hin _].
  apply in_map_iff. exists (k, v'). auto.
Qed.

(** X3: with distinct keys the result has no name twice, and it never has
    more names than the namespace has entries. *)
Theorem listed_names_distinct (ns : namespace) (S : pyset) (names : list string)
    (S' : pyset) :
  relevant ns S = (Ok names, S') ->
  List.length names <= List.length ns
  /\ (NoDup (map fst ns) -> NoDup names).
Proof.
  rewrite relevant_spec. simpl.
  destruct (existsb _ ns); [discriminate|].
  intros H. injection H as <- _.
  pose proof (sorted_perm (map fst (filter (keeping (set_update S typing_vals)) ns)))
    as Hperm.
  split.
  - rewrite (Permutation_length Hperm), length_map. apply filter_length_le.
  - intros Hnd. eapply Permutation_NoDup; [apply Permutation_sym, Hperm|].
    apply NoDup_keys_filter. exact Hnd.
Qed.

(** X4: a namespace whose names all start with an underscore yields the
    empty list; the predicate is not asked, so no value of it can make the
    call raise. *)
Theorem private_namespace_empty (ns : namespace) (S : pyset) :
  (forall name attr, In (name, attr) ns -> startswith name "_" = true) ->
  fst (relevant ns S) = Ok [].
Proof.
  intros H. unfold relevant_attributes. simpl.
  assert (E : forall S1, select_names str_hash cwd S1 ns = Ok []).
  { intros S1. induction ns as [|[name attr] rest IH]; simpl; [reflexivity|].
    rewrite (H name attr (or_introl eq_refl)). simpl.
    apply IH. intros n a Hin. apply (H n a). right. exact Hin. }
  rewrite E. reflexivity.
Qed.


(** X6: after a first call, no later call changes the exclusion set, whatever
    namespaces are filtered. *)
Theorem exclusion_set_stabilises (calls : list namespace) (ns : namespace)
    (S : pyset) :
  calls_from calls (snd (relevant ns S)) = snd (relevant ns S).
Proof.
  rewrite relevant_state.
  induction calls as [|c calls IH]; simpl; [reflexivity|].
  rewrite set_update_idem. exact IH.
Qed.

Lemma excluded_mono S1 S2 attr name :
  (forall x, set_contains S1 x = true -> set_contains S2 x = true) ->
  excluded str_hash S1 attr name = true -> excluded str_hash S2 attr name = true.
Proof.
  intros Hsub. unfold excluded.
  destruct (truthy (getattr_static attr "_deprecated" (VBool false))); [reflexivity|].
  destruct (py_is attr TYPE_CHECKING); [reflexivity|].
  destruct (is_hashable attr); simpl; [|exact (fun H => H)].
  destruct (set_contains S1 attr) eqn:E; simpl.
  - rewrite (Hsub attr E). reflexivity.
  - intros H. rewrite <- orb_assoc, H. apply orb_true_r.
Qed.

Lemma is_relevant_mono S1 S2 attr name :
  (forall x, set_contains S1 x = true -> set_contains S2 x = true) ->
  forall keep, is_relevant S1 attr name = Ok keep ->
  exists keep', is_relevant S2 attr name = Ok keep' /\ (keep' = true -> keep = true).
Proof.
  intros Hsub keep. unfold _is_relevant.
  destruct (excluded str_hash S1 attr name) eqn:E1.
  - rewrite (excluded_mono _ _ _ _ Hsub E1). intros _.
    exists false. split; [reflexivity | discriminate].
  - destruct (excluded str_hash S2 attr name).
    + intros _. exists false. split; [reflexivity | discriminate].
    + intros H. exists keep. auto.
Qed.

Lemma select_names_mono S1 S2 :
  (forall x, set_contains S1 x = true -> set_contains S2 x = true) ->
  forall ns l1, select_names str_hash cwd S1 ns = Ok l1 ->
  exists l2, select_names str_hash cwd S2 ns = Ok l2 /\ incl l2 l1.
Proof.
  intros Hsub. induction ns as [|[name attr] ns IH]; simpl; intros l1.
  - intros H. injection H as <-. exists []. split; [reflexivity | apply incl_refl].
  - destruct (startswith name "_"); simpl; [apply IH|].
    destruct (is_relevant S1 attr name) as [keep|] eqn:E1; simpl; [|discriminate].
    destruct (select_names str_hash cwd S1 ns) as [r1|]; simpl; [|discriminate].
    intros H. injection H as <-.
    destruct (is_relevant_mono _ _ _ _ Hsub keep E1) as [keep' [E2 Hk]].
    destruct (IH r1 eq_refl) as [r2 [E Hincl]].
    rewrite E2, E. simpl. eexists. split; [reflexivity|].
    destruct keep'.
    + rewrite (Hk eq_refl). intros x [<- | Hx]; [left; reflexivity|].
      right. apply Hincl. exact Hx.
    + destruct keep; [apply incl_tl|]; exact Hincl.
Qed.

(** X7: a larger exclusion set can only take names out of the result: if the
    call returns a list from a set, it returns a list from any set with at
    least the same members, and every name of that list is in the first. *)
Theorem larger_exclusion_set_lists_less (ns : namespace) (S1 S2 : pyset)
    (names1 : list string) :
  (forall x, set_contains S1 x = true -> set_contains S2 x = true) ->
  fst (relevant ns S1) = Ok names1 ->
  exists names2, fst (relevant ns S2) = Ok names2 /\ incl names2 names1.
Proof.
  intros Hsub. unfold relevant_attributes. simpl.
  destruct (select_names str_hash cwd (set_update S1 typing_vals) ns) as [l1|] eqn:E1;
    simpl; [|discriminate].
  intros H. injection H as <-.
  assert (Hsub' : forall x, set_contains (set_update S1 typing_vals) x = true ->
                            set_contains (set_update S2 typing_vals) x = true).
  { intros x. rewrite !set_update_contains_eq.
    destruct (set_contains S1 x) eqn:E; simpl.
    - rewrite (Hsub x E). reflexivity.
    - intros ->. apply orb_true_r. }
  destruct (select_names_mono _ _ Hsub' ns l1 E1) as [l2 [E2 Hincl]].
  rewrite E2. simpl. eexists. split; [reflexivity|].
  intros x Hx. apply sorted_In. apply Hincl.
  exact (proj1 (sorted_In _ _) Hx).
Qed.


End FilterMore.

(** ** The order of the typing-support namespace *)

Lemma select_names_ext str_hash cwd S1 S2 :
  (forall x, set_contains S1 x = set_contains S2 x) ->
  forall ns, select_names str_hash cwd S1 ns = select_names str_hash cwd S2 ns.
Proof.
  intros H. induction ns as [|[name attr] ns IH]; simpl; [reflexivity|].
  rewrite IH. destruct (startswith name "_"); simpl; [reflexivity|].
  unfold _is_relevant, excluded. rewrite (H attr). reflexivity.
Qed.

(** X9: the outcome of a call does not depend on the order in which the
    typing-support namespace lists its entries. *)
Theorem typing_order_irrelevant (str_hash : string -> Z) (td td' : namespace)
    (cwd : string) (ns : namespace) (S : pyset) :
  Permutation td td' ->
  fst (relevant_attributes str_hash td cwd ns S)
  = fst (relevant_attributes str_hash td' cwd ns S).
Proof.
  intros Hperm. unfold relevant_attributes. simpl.
  rewrite (select_names_ext str_hash cwd
             (set_update S (typing_values str_hash td))
             (set_update S (typing_values str_hash td'))); [reflexivity|].
  intros x. rewrite !set_update_contains_eq. f_equal.
  apply existsb_permutation. unfold typing_values.
  apply Permutation_map, filter_permutation, Hperm.
Qed.

(** ** Further properties of the splice *)

Lemma scan_armed_finds lines :
  (exists l, In l lines /\ startswith l "]" = true) ->
  forall idx f, exists i j, scan lines idx (Some f) = (Some i, Some j).
Proof.
  induction lines as [|line rest IH]; intros [l [Hin Hl]] idx f;
    [destruct Hin|]. simpl.
  destruct (startswith line "__all__ =") eqn:Hdecl.
  - apply IH. destruct Hin as [<- | Hin]; [|eauto].
    rewrite (decl_not_close _ Hdecl) in Hl. discriminate.
  - simpl. destruct (startswith line "]") eqn:Hclose; [eauto|].
    apply IH. destruct Hin as [<- | Hin]; [congruence | eauto].
Qed.

Lemma scan_finds pre : forall decl post idx,
  startswith decl "__all__ =" = true ->
  (exists l, In l post /\ startswith l "]" = true) ->
  exists i j, scan (pre ++ decl :: post) idx None = (Some i, Some j).
Proof.
  induction pre as [|x pre IH]; intros decl post idx Hdecl Hclose; simpl.
  - rewrite Hdecl. apply scan_armed_finds. exact Hclose.
  - destruct (startswith x "__all__ ="); [|simpl; apply IH; assumption].
    apply scan_armed_finds. destruct Hclose as [l [Hin Hl]].
    exists l. split; [|exact Hl]. apply in_or_app. right. right. exact Hin.
Qed.

Lemma scan_missing_no_close lines :
  (forall i j, scan lines 0 None <> (Some i, Some j)) ->
  no_close_after_decl lines.
Proof.
  intros H pre decl post -> Hdecl l Hl.
  destruct (startswith l "]") eqn:E; [|reflexivity]. exfalso.
  destruct (scan_finds pre decl post 0 Hdecl (ex_intro _ l (conj Hl E)))
    as [i [j Hscan]].
  exact (H i j Hscan).
Qed.

Lemma relevant_raise_kind str_hash typing_dict cwd ns S e :
  fst (relevant_attributes str_hash typing_dict cwd ns S) = Raise e ->
  e = AttributeError.
Proof.
  rewrite relevant_spec. simpl.
  destruct (existsb _ ns); simpl; [|discriminate].
  intros H. injection H as <-. reflexivity.
Qed.

Section SpliceMore.

Variable str_hash : string -> Z.
Variable typing_dict : namespace.
Variable cwd : string.
Variable alt_dict : namespace.
Variable write_lint_format : list string -> list string.

Local Abbreviation update :=
  (update__all__variable str_hash typing_dict cwd alt_dict write_lint_format).
Local Abbreviation relevant := (relevant_attributes str_hash typing_dict cwd).

(** X10: the run ends in an assertion failure exactly when the stripped
    lines have no line starting with a closing bracket after a line that
    opens the declaration. *)
Theorem assertion_iff_markers_missing (w : world) :
  fst (update w) = Raise AssertionError
  <-> no_close_after_decl (map strip_nl (init_file w)).
Proof.
  unfold update__all__variable. cbv zeta. split.
  - destruct (scan (map strip_nl (init_file w)) 0 None) as [[i|] [j|]] eqn:Hscan.
    + destruct (relevant alt_dict (constructs_of w)) as [[names|e] S1] eqn:Hrel;
        cbn [fst]; [discriminate|].
      intros H. injection H as ->.
      assert (E : fst (relevant alt_dict (constructs_of w)) = Raise AssertionError)
        by (rewrite Hrel; reflexivity).
      apply relevant_raise_kind in E. discriminate E.
    + intros _. apply scan_missing_no_close. intros i' j'. rewrite Hscan. discriminate.
    + intros _. apply scan_missing_no_close. intros i' j'. rewrite Hscan. discriminate.
    + intros _. apply scan_missing_no_close. intros i' j'. rewrite Hscan. discriminate.
  - intros Hnc. pose proof (scan_unclosed _ Hnc 0) as Hscan.
    destruct (scan (map strip_nl (init_file w)) 0 None) as [[i|] [j|]];
      simpl in Hscan; try discriminate; reflexivity.
Qed.

(** X11: a run that raises writes nothing: the file and the line sequences
    handed to the formatter are as before.  On an assertion failure the
    exclusion set is untouched as well; on [AttributeError] it has been
    extended by the call of [relevant_attributes]. *)
Theorem failed_run_writes_nothing (w : world) (e : exn) :
  fst (update w) = Raise e ->
  init_file (snd (update w)) = init_file w
  /\ handed (snd (update w)) = handed w
  /\ (e = AssertionError -> snd (update w) = w)
  /\ (e = AttributeError ->
      constructs_of (snd (update w)) = snd (relevant alt_dict (constructs_of w))).
Proof.
  unfold update__all__variable. cbv zeta.
  destruct (scan (map strip_nl (init_file w)) 0 None) as [[i|] [j|]] eqn:Hscan;
    cbn [fst snd].
  - destruct (relevant alt_dict (constructs_of w)) as [[names|e'] S1] eqn:Hrel;
      cbn [fst snd init_file handed constructs_of]; [discriminate|].
    intros H. injection H as ->.
    assert (E : fst (relevant alt_dict (constructs_of w)) = Raise e)
      by (rewrite Hrel; reflexivity).
    apply relevant_raise_kind in E. subst e.
    split; [reflexivity|]. split; [reflexivity|].
    split; [discriminate | reflexivity].
  - intros H. injection H as <-. repeat split. discriminate.
  - intros H. injection H as <-. repeat split. discriminate.
  - intros H. injection H as <-. repeat split. discriminate.
Qed.

End SpliceMore.

(** X12: the two indices the loop finds are in range and in order: the
    opening index is below the closing index, which is below the number of
    lines; the line at the first opens the declaration, the line at the
    second starts with a closing bracket, and no line strictly between them
    does either. *)
Theorem scan_indices_in_range (lines : list string) (i j : nat) :
  scan lines 0 None = (Some i, Some j) ->
  i < j < List.length lines
  /\ (exists opening, nth_error lines i = Some opening
                      /\ startswith opening "__all__ =" = true)
  /\ (exists closing, nth_error lines j = Some closing
                      /\ startswith closing "]" = true)
  /\ (forall k line, i < k < j -> nth_error lines k = Some line ->
        startswith line "__all__ =" = false /\ startswith line "]" = false).
Proof.
  intros H. apply scan_boundaries in H.
  destruct H as [pre [opening [block [closing [post
    [-> [-> [-> [Ho [Hc [Hblock _]]]]]]]]]]].
  simpl. split; [|split; [|split]].
  - rewrite length_app. simpl. rewrite length_app. simpl. lia.
  - exists opening. split; [|exact Ho].
    rewrite nth_error_app2 by lia. rewrite Nat.sub_diag. reflexivity.
  - exists closing. split; [|exact Hc].
    rewrite nth_error_app2 by lia.
    replace (List.length pre + 1 + List.length block - List.length pre)
      with (S (List.length block)) by lia.
    simpl. rewrite nth_error_app2 by lia. rewrite Nat.sub_diag. reflexivity.
  - intros k line Hk Hnth. apply Hblock.
    rewrite nth_error_app2 in Hnth by lia.
    destruct (k - List.length pre) as [|m] eqn:Ek; [lia|].
    simpl in Hnth. rewrite nth_error_app1 in Hnth by lia.
    eapply nth_error_In. exact Hnth.
Qed.

(** ** The further properties on concrete inputs *)

Lemma listed_names_sound_witness :
  relevant_attributes sample_str_hash sample_typing_dict "/proj" sample_namespace []
  = (Ok ["Chart"; "config_list"; "utils"], [VObject 5 []; VObject 6 []])
  /\ In "utils" ["Chart"; "config_list"; "utils"]
  /\ startswith "utils" "_" = false /\ "utils" <> "pd" /\ "utils" <> "jsonschema"
  /\ exists attr,
       In ("utils", attr) sample_namespace
       /\ attr <> VBool false
       /\ (ismodule attr = true ->
           exists path,
             getattr_static attr "__file__" (VStr EmptyString) = VStr path
             /\ startswith path "/proj" = true).
Proof.
  assert (Hin : In "utils" ["Chart"; "config_list"; "utils"]).
  { right. right. left. reflexivity. }
  split; [reflexivity|]. split; [exact Hin|].
  destruct (listed_names_sound sample_str_hash sample_typing_dict "/proj"
              sample_namespace [] ["Chart"; "config_list"; "utils"]
              [VObject 5 []; VObject 6 []] "utils" eq_refl Hin)
    as [H1 [H2 [H3 [attr [H4 [H5 [_ [_ [_ H6]]]]]]]]].
  split; [exact H1|]. split; [exact H2|]. split; [exact H3|].
  exists attr. split; [exact H4|]. split; [exact H5 | exact H6].
Defined.

Lemma listed_iff_accepted_witness :
  NoDup (map fst sample_namespace)
  /\ In ("Chart", VObject 1 []) sample_namespace
  /\ relevant_attributes sample_str_hash sample_typing_dict "/proj" sample_namespace []
     = (Ok ["Chart"; "config_list"; "utils"], [VObject 5 []; VObject 6 []])
  /\ (In "Chart" ["Chart"; "config_list"; "utils"] <->
      startswith "Chart" "_" = false
      /\ _is_relevant sample_str_hash "/proj" [VObject 5 []; VObject 6 []]
           (VObject 1 []) "Chart" = Ok true).
Proof.
  assert (Hnd : NoDup (map fst sample_namespace)) by (simpl; distinct_keys).
  assert (Hin : In ("Chart", VObject 1 []) sample_namespace) by (left; reflexivity).
  split; [exact Hnd|]. split; [exact Hin|]. split; [reflexivity|].
  apply (listed_iff_accepted sample_str_hash sample_typing_dict "/proj"
           sample_namespace [] ["Chart"; "config_list"; "utils"]
           [VObject 5 []; VObject 6 []] "Chart" (VObject 1 []) Hnd Hin eq_refl).
Defined.

Lemma listed_names_distinct_witness :
  relevant_attributes sample_str_hash sample_typing_dict "/proj" sample_namespace []
  = (Ok ["Chart"; "config_list"; "utils"], [VObject 5 []; VObject 6 []])
  /\ List.length ["Chart"; "config_list"; "utils"] <= List.length sample_namespace
  /\ (NoDup (map fst sample_namespace) -> NoDup ["Chart"; "config_list"; "utils"]).
Proof.
  split; [reflexivity|].
  apply (listed_names_distinct sample_str_hash sample_typing_dict "/proj"
           sample_namespace [] ["Chart"; "config_list"; "utils"]
           [VObject 5 []; VObject 6 []] eq_refl).
Defined.

Lemma private_namespace_empty_witness :
  let ns := [("_version", VStr "5.0"); ("__broken", VModule 4 [("__file__", VNone)])] in
  (forall name attr, In (name, attr) ns -> startswith name "_" = true)
  /\ fst (relevant_attributes sample_str_hash sample_typing_dict "/proj" ns []) = Ok [].
Proof.
  intros ns.
  assert (H : forall name attr, In (name, attr) ns -> startswith name "_" = true).
  { intros name attr [E | [E | []]]; injection E as <- <-; reflexivity. }
  split; [exact H|].
  apply (private_namespace_empty sample_str_hash sample_typing_dict "/proj" ns [] H).
Defined.

Lemma larger_exclusion_set_lists_less_witness :
  (forall x, set_contains [] x = true -> set_contains [VObject 1 []] x = true)
  /\ fst (relevant_attributes sample_str_hash sample_typing_dict "/proj"
            sample_namespace [])
     = Ok ["Chart"; "config_list"; "utils"]
  /\ exists names2,
       fst (relevant_attributes sample_str_hash sample_typing_dict "/proj"
              sample_namespace [VObject 1 []]) = Ok names2
       /\ incl names2 ["Chart"; "config_list"; "utils"].
Proof.
  assert (H : forall x, set_contains [] x = true -> set_contains [VObject 1 []] x = true).
  { intros x E. discriminate E. }
  split; [exact H|]. split; [reflexivity|].
  apply (larger_exclusion_set_lists_less sample_str_hash sample_typing_dict "/proj"
           sample_namespace [] [VObject 1 []] ["Chart"; "config_list"; "utils"] H eq_refl).
Defined.


Lemma typing_order_irrelevant_witness :
  let td := [("Map", VObject 6 []); ("Alias", VObject 1 [])] in
  let td' := [("Alias", VObject 1 []); ("Map", VObject 6 [])] in
  Permutation td td'
  /\ fst (relevant_attributes sample_str_hash td "/proj" sample_namespace [])
     = fst (relevant_attributes sample_str_hash td' "/proj" sample_namespace []).
Proof.
  intros td td'. split; [apply perm_swap|].
  apply (typing_order_irrelevant sample_str_hash td td' "/proj" sample_namespace []).
  apply perm_swap.
Defined.

Lemma failed_run_writes_nothing_witness :
  let w := World sample_init_file [] [] in
  let run := update__all__variable sample_str_hash sample_typing_dict "/proj"
               [("broken", VModule 4 [("__file__", VNone)])] (fun lines => lines) in
  fst (run w) = Raise AttributeError
  /\ init_file (snd (run w)) = init_file w
  /\ handed (snd (run w)) = handed w.
Proof.
  intros w run. split; [reflexivity|].
  destruct (failed_run_writes_nothing sample_str_hash sample_typing_dict "/proj"
              [("broken", VModule 4 [("__file__", VNone)])] (fun lines => lines)
              w AttributeError eq_refl) as [H1 [H2 _]].
  split; [exact H1 | exact H2].
Defined.

Lemma scan_indices_in_range_witness :
  scan (map strip_nl sample_init_file) 0 None = (Some 1, Some 3)
  /\ 1 < 3 < List.length (map strip_nl sample_init_file).
Proof.
  split; [reflexivity|].
  apply (scan_indices_in_range (map strip_nl sample_init_file) 1 3 eq_refl).
Defined.
